(** * AgroScan: rule engine and Perplexity chat / recommendation handlers

    Shallow embedding of
    - [ruleEngine.js] in its two variants: the progressive engine
      (src/unnamed/part_001) and the basic engine (src/unnamed/part_000);
    - [preassignedCommands.js] and [aiPersonality.js] (src/unnamed/part_002);
    - [askPerplexityChat] / [queryPerplexityAI] (src/perplexity-chat-handler.js,
      axios version);
    - [askPerplexityRecommend] (src/perplexity-recommend-handler.js, first
      definition, fetch version);
    - the [/recommend] and [/chat] routes of [server.js]
      (src/unnamed/part_003) that call the handlers, over a small model of
      the [chat_sessions] and [ai_chats] tables.

    JavaScript values are the inductive [jsv].  A JS number is a rational
    ([Q]) or NaN ([None]); the decimal formatting of numbers and the parsing
    of numeric strings are left abstract (class [NumberConversions]), every
    statement holds for any choice of them.  JS strings are modelled as
    strings of Latin-1 code units (Rocq [string]). *)

From Stdlib Require Import String Ascii List QArith Bool Lia PeanoNat.
Import ListNotations.
Set Warnings "-register-all".

(* ================================================================= *)
(** ** JavaScript values *)

(** A JS number: a finite value as a rational, [None] for NaN. *)
Definition number : Type := option Q.

Inductive jsv : Type :=
| Undef
| Null
| Bool (b : bool)
| Num (n : number)
| Str (s : string)
| Arr (elems : list jsv)
| Obj (fields : list (string * jsv))
(** a host object that no JSON value produces: a built-in function or
    [Object.prototype] *)
| Host (name : string).

(** Number::toString and StringToNumber, left abstract. *)
Class NumberConversions := {
  number_to_string : number -> string;
  string_to_number : string -> number
}.

Section Values.
Context {NC : NumberConversions}.

Local Open Scope string_scope.

(** ToString, as used by template literals and Array.prototype.join. *)
Fixpoint js_to_string (v : jsv) : string :=
  match v with
  | Undef => "undefined"
  | Null => "null"
  | Bool true => "true"
  | Bool false => "false"
  | Num n => number_to_string n
  | Str s => s
  | Arr l =>
      (fix join (l : list jsv) : string :=
         match l with
         | [] => ""
         | x :: r =>
             let e := match x with Undef | Null => "" | _ => js_to_string x end in
             match r with
             | [] => e
             | _ :: _ => e ++ "," ++ join r
             end
         end) l
  | Obj _ => "[object Object]"
  | Host name =>
      if String.eqb name "Object.prototype" then "[object Object]"
      else "function " ++ name ++ "() { [native code] }"
  end.

(** ToNumber (objects go through ToPrimitive, i.e. their string form). *)
Definition to_number (v : jsv) : number :=
  match v with
  | Undef => None
  | Null => Some 0%Q
  | Bool b => Some (if b then 1%Q else 0%Q)
  | Num n => n
  | Str s => string_to_number s
  | _ => string_to_number (js_to_string v)
  end.

End Values.

Definition Qltb (x y : Q) : bool := negb (Qle_bool y x).

Section Compare.
Context {NC : NumberConversions}.

(** The relational operators against a numeric literal [c]: every
    comparison with NaN is false. *)
Definition js_lt (v : jsv) (c : Q) : bool :=
  match to_number v with Some q => Qltb q c | None => false end.
Definition js_gt (v : jsv) (c : Q) : bool :=
  match to_number v with Some q => Qltb c q | None => false end.
Definition js_le (v : jsv) (c : Q) : bool :=
  match to_number v with Some q => Qle_bool q c | None => false end.
Definition js_ge (v : jsv) (c : Q) : bool :=
  match to_number v with Some q => Qle_bool c q | None => false end.

End Compare.

(** ToBoolean. *)
Definition js_truthy (v : jsv) : bool :=
  match v with
  | Undef | Null => false
  | Bool b => b
  | Num None => false
  | Num (Some q) => negb (Qeq_bool q 0)
  | Str s => negb (String.eqb s EmptyString)
  | Arr _ | Obj _ | Host _ => true
  end.

(** [v === undefined] *)
Definition is_undefined (v : jsv) : bool :=
  match v with Undef => true | _ => false end.

(** [recommendations.push(s)] on the array contents. *)
Definition push (r : list string) (s : string) : list string := r ++ [s].

(* ================================================================= *)
(** ** ruleEngine.js, progressive engine (src/unnamed/part_001) *)

Module Progressive.
Local Open Scope string_scope.

Definition ACIDIC := "Soil is acidic. Add lime to balance pH.".
Definition ALKALINE := "Soil is alkaline. Add sulfur or compost.".
Definition PH_GOOD := "Soil pH is good for most crops.".
Definition DRY := "Soil is dry. Irrigation is recommended.".
Definition WET := "Soil is wet. Avoid overwatering.".
Definition MOISTURE_GOOD := "Soil moisture is in a healthy range.".
Definition TEMP_LOW := "Temperature is low. Frost protection may be needed.".
Definition TEMP_HIGH := "Temperature is high. Provide shade or extra water.".
Definition TEMP_GOOD := "Temperature is suitable for most crops.".
Definition VERY_ACIDIC :=
  "Very acidic soil. Apply lime generously, monitor crop growth.".
Definition STRONGLY_ALKALINE :=
  "Strongly alkaline soil. Consider gypsum or acidifying organic matter.".
Definition EXTREMELY_DRY :=
  "Extremely dry soil. Use mulching and drip irrigation to conserve water.".
Definition ROOT_ROT :=
  "Excess water can cause root rot. Improve drainage or raised beds.".
Definition COLD_STRESS :=
  "Severe cold stress. Use row covers or greenhouses for sensitive crops.".
Definition HEAT_STRESS :=
  "Heat stress likely. Use shade nets and frequent irrigation.".
Definition NUTRIENT :=
  "Nutrient availability may be limited. Conduct soil NPK test.".
Definition PEST :=
  "High humidity and heat can increase pest/fungal disease risk. Monitor closely and consider IPM strategies.".
Definition CROPS :=
  "Conditions are optimal for crops like wheat, rice, maize, and vegetables.".

Section Engine.
Context {NC : NumberConversions}.
Variables ph moisture temperature : jsv.

(** Each block of the function body, as an update of [recommendations]. *)
Definition basic_ph (r : list string) : list string :=
  if js_lt ph 6 then push r ACIDIC
  else if js_gt ph 8 then push r ALKALINE
  else push r PH_GOOD.

Definition basic_moisture (r : list string) : list string :=
  if js_lt moisture 30 then push r DRY
  else if js_gt moisture 70 then push r WET
  else push r MOISTURE_GOOD.

Definition basic_temperature (r : list string) : list string :=
  if negb (is_undefined temperature) then
    if js_lt temperature 15 then push r TEMP_LOW
    else if js_gt temperature 35 then push r TEMP_HIGH
    else push r TEMP_GOOD
  else r.

Definition advanced_ph (r : list string) : list string :=
  if js_lt ph (11 # 2) then push r VERY_ACIDIC
  else if js_gt ph (17 # 2) then push r STRONGLY_ALKALINE
  else r.

Definition advanced_moisture (r : list string) : list string :=
  if js_lt moisture 20 then push r EXTREMELY_DRY
  else if js_gt moisture 80 then push r ROOT_ROT
  else r.

Definition advanced_temperature (r : list string) : list string :=
  if js_lt temperature 10 then push r COLD_STRESS
  else if js_gt temperature 40 then push r HEAT_STRESS
  else r.

Definition scientific_nutrient (r : list string) : list string :=
  if js_lt ph 6 || js_gt ph 8 then push r NUTRIENT else r.

Definition scientific_pest (r : list string) : list string :=
  if (js_gt moisture 70 && js_gt temperature 30) || js_gt temperature 35
  then push r PEST else r.

Definition scientific_crops (r : list string) : list string :=
  if js_ge ph 6 && js_le ph (15 # 2) && js_ge moisture 30 && js_le moisture 70
  then push r CROPS else r.

End Engine.

(** [ruleEngine(ph, moisture, temperature)]: the contents of the array it
    returns, starting from [let recommendations = []]. *)
Definition ruleEngine {NC : NumberConversions} (ph moisture temperature : jsv)
  : list string :=
  let recommendations := [] in
  let recommendations := basic_ph ph recommendations in
  let recommendations := basic_moisture moisture recommendations in
  let recommendations := basic_temperature temperature recommendations in
  let recommendations := advanced_ph ph recommendations in
  let recommendations := advanced_moisture moisture recommendations in
  let recommendations := advanced_temperature temperature recommendations in
  let recommendations := scientific_nutrient ph recommendations in
  let recommendations := scientific_pest moisture temperature recommendations in
  let recommendations := scientific_crops ph moisture recommendations in
  recommendations.

End Progressive.

(* ================================================================= *)
(** ** ruleEngine.js, basic engine (src/unnamed/part_000) *)

Module Basic.
Local Open Scope string_scope.

Definition ACIDIC := "Soil is acidic. Add lime to balance pH.".
Definition ALKALINE := "Soil is alkaline. Add sulfur or organic compost.".
Definition PH_OPTIMAL := "Soil pH is optimal for most crops.".
Definition DRY := "Soil is too dry. Irrigation is recommended.".
Definition WATERLOGGED := "Soil is waterlogged. Improve drainage.".
Definition MOISTURE_GOOD := "Soil moisture is within a good range.".
Definition TEMP_LOW := "Temperature is low. Consider frost protection.".
Definition TEMP_HIGH := "Temperature is high. Shade crops or increase irrigation.".
Definition TEMP_GOOD := "Temperature is favorable for most crops.".

Section Engine.
Context {NC : NumberConversions}.
Variables ph moisture temperature : jsv.

Definition basic_ph (r : list string) : list string :=
  if js_lt ph 6 then push r ACIDIC
  else if js_gt ph 8 then push r ALKALINE
  else push r PH_OPTIMAL.

Definition basic_moisture (r : list string) : list string :=
  if js_lt moisture 30 then push r DRY
  else if js_gt moisture 70 then push r WATERLOGGED
  else push r MOISTURE_GOOD.

(** [if (temperature) { ... }]: a truthiness test. *)
Definition basic_temperature (r : list string) : list string :=
  if js_truthy temperature then
    if js_lt temperature 15 then push r TEMP_LOW
    else if js_gt temperature 35 then push r TEMP_HIGH
    else push r TEMP_GOOD
  else r.

End Engine.

Definition ruleEngine {NC : NumberConversions} (ph moisture temperature : jsv)
  : list string :=
  let recommendations := [] in
  let recommendations := basic_ph ph recommendations in
  let recommendations := basic_moisture moisture recommendations in
  let recommendations := basic_temperature temperature recommendations in
  recommendations.

End Basic.

Definition qnum (q : Q) : jsv := Num (Some q).

(* ================================================================= *)
(** ** Strings: String.prototype.trim and toLowerCase *)

(** WhiteSpace and LineTerminator code units among Latin-1: TAB, LF, VT,
    FF, CR, SPACE and NO-BREAK SPACE. *)
Definition is_js_space (c : ascii) : bool :=
  existsb (Nat.eqb (nat_of_ascii c)) [9; 10; 11; 12; 13; 32; 160]%nat.

Fixpoint drop_spaces (l : list ascii) : list ascii :=
  match l with
  | c :: r => if is_js_space c then drop_spaces r else l
  | [] => []
  end.

Definition str_trim (s : string) : string :=
  string_of_list_ascii
    (rev (drop_spaces (rev (drop_spaces (list_ascii_of_string s))))).

(** Lower-casing of the Latin-1 upper-case letters A-Z and U+00C0-U+00DE
    (without U+00D7, the multiplication sign). *)
Definition lower_char (c : ascii) : ascii :=
  let n := nat_of_ascii c in
  if (Nat.leb 65 n && Nat.leb n 90)
     || (Nat.leb 192 n && Nat.leb n 222 && negb (Nat.eqb n 215))
  then ascii_of_nat (n + 32)%nat else c.

Definition str_lower (s : string) : string :=
  string_of_list_ascii (map lower_char (list_ascii_of_string s)).

Definition nl : string := String (ascii_of_nat 10) EmptyString.

(* ================================================================= *)
(** ** Effects: exceptions, the completion collaborator and a trace *)

(** What the external completion service does with one request: a
    network or HTTP failure, a body that is not JSON, or a JSON body. *)
Inductive outcome : Type :=
| NetErr
| Malformed (raw : string)
| Resp (data : jsv).

(** The completion collaborator, as a function of the prompt and the
    [max_tokens] budget sent to it. *)
Definition oracle : Type := string -> Z -> outcome.

(** Observable events: a lookup in the command table, a request to the
    completion collaborator, a line written by [console.error]. *)
Inductive event : Type :=
| ECommandLookup (message : jsv)
| EQuery (prompt : string) (max_tokens : Z)
| ELog (tag : string).

Inductive result (A : Type) : Type :=
| Ok (a : A)
| Throw (err : jsv).
Arguments Ok {A} a.
Arguments Throw {A} err.

(** An async computation: reads the collaborator, emits events, returns
    or throws. *)
Definition M (A : Type) : Type := oracle -> list event * result A.

Definition ret {A} (a : A) : M A := fun _ => ([], Ok a).

Definition bind {A B} (m : M A) (k : A -> M B) : M B :=
  fun o =>
    match m o with
    | (t1, Ok a) => let (t2, r) := k a o in (t1 ++ t2, r)
    | (t1, Throw e) => (t1, Throw e)
    end.

Definition throw {A} (e : jsv) : M A := fun _ => ([], Throw e).

(** [try { m } catch (err) { h(err) }] *)
Definition try_catch {A} (m : M A) (h : jsv -> M A) : M A :=
  fun o =>
    match m o with
    | (t1, Ok a) => (t1, Ok a)
    | (t1, Throw e) => let (t2, r) := h e o in (t1 ++ t2, r)
    end.

Definition emit (ev : event) : M unit := fun _ => ([ev], Ok tt).

Notation "x <- m ;; k" := (bind m (fun x => k))
  (at level 61, m at next level, right associativity).

Local Open Scope string_scope.

Definition error_object (name msg : string) : jsv :=
  Obj [("name", Str name); ("message", Str msg)].

Definition type_error : jsv := error_object "TypeError" "not a function or not an object".

Fixpoint assoc (k : string) (fs : list (string * jsv)) : option jsv :=
  match fs with
  | [] => None
  | (k', v) :: r => if String.eqb k k' then Some v else assoc k r
  end.

(** Properties every object inherits from [Object.prototype]. *)
Definition object_prototype_keys : list string :=
  ["constructor"; "hasOwnProperty"; "isPrototypeOf"; "propertyIsEnumerable";
   "toString"; "toLocaleString"; "valueOf"; "__defineGetter__";
   "__defineSetter__"; "__lookupGetter__"; "__lookupSetter__"].

(** [o[k]] on a plain object: own property, else inherited one. *)
Definition object_get (fs : list (string * jsv)) (k : string) : jsv :=
  match assoc k fs with
  | Some v => v
  | None =>
      if String.eqb k "__proto__" then Host "Object.prototype"
      else if existsb (String.eqb k) object_prototype_keys then Host k
      else Undef
  end.

(** Property read [v.k] for the data keys read by the handlers: throws on
    [undefined] and [null]; primitives, arrays and functions have no such
    property. *)
Definition get_prop (v : jsv) (k : string) : M jsv :=
  match v with
  | Undef | Null => throw type_error
  | Obj fs => ret (object_get fs k)
  | _ => ret Undef
  end.

(** [v.trim()]: a method of strings only. *)
Definition call_trim (v : jsv) : M jsv :=
  match v with
  | Str s => ret (Str (str_trim s))
  | _ => throw type_error
  end.

(** [v.toLowerCase()] *)
Definition call_to_lower (v : jsv) : M jsv :=
  match v with
  | Str s => ret (Str (str_lower s))
  | _ => throw type_error
  end.

(** [a || b] *)
Definition js_or (a b : jsv) : jsv := if js_truthy a then a else b.

(* ================================================================= *)
(** ** preassignedCommands.js *)

Definition HELP :=
  "You can ask me about soil health, crop recommendations, pest management, and general agriculture advice.".

Definition commands : list (string * jsv) :=
  [("help", Str HELP);
   ("who are you", Str "I am AgroBot, your professional agriculture assistant. I provide guidance on crops, soil, and farming best practices.");
   ("hello", Str "Hello! How can I assist you with your farm or garden today?");
   ("hi", Str "Hi there! Ask me anything about agriculture.");
   ("thank you", Str "You're welcome! Happy to help with your agricultural queries.");
   ("bye", Str "Goodbye! Wishing you a successful harvest.")].

(** [getPreassignedCommand(message)] *)
Definition getPreassignedCommand (message : jsv) : M jsv :=
  _ <- emit (ECommandLookup message) ;;
  t <- call_trim message ;;
  key <- call_to_lower t ;;
  match key with
  | Str k => ret (js_or (object_get commands k) Null)
  | _ => throw type_error
  end.

(* ================================================================= *)
(** ** aiPersonality.js *)

Definition AI_PERSONALITY_DESCRIPTION : string :=
  nl ++ "You are a professional and easy-to-understand agriculture AI." ++ nl ++
  "Provide concise, accurate, and friendly guidance for farmers and students." ++ nl ++
  "Always keep answers simple, clear, and practical." ++ nl.

Definition getAIPersonality : string := AI_PERSONALITY_DESCRIPTION.

(* ================================================================= *)
(** ** perplexity-chat-handler.js *)

Record chat_msg : Type := { role : jsv; content : jsv }.

Section Chat.
Context {NC : NumberConversions}.

Definition CHAT_FALLBACK := "AI failed to respond".

(** [await axios.post(...)] then [response.data]: axios rejects on a
    network or HTTP failure and keeps an unparsable body as its text. *)
Definition axios_post_data (prompt : string) (maxTokens : Z) : M jsv :=
  fun o =>
    ([EQuery prompt maxTokens],
     match o prompt maxTokens with
     | NetErr => Throw (error_object "AxiosError" "Request failed")
     | Malformed raw => Ok (Str raw)
     | Resp data => Ok data
     end).

(** [queryPerplexityAI(prompt, maxTokens)] *)
Definition queryPerplexityAI (prompt : string) (maxTokens : Z) : M jsv :=
  try_catch
    (data <- axios_post_data prompt maxTokens ;;
     answer <- get_prop data "answer" ;;
     ret (js_or answer (Str CHAT_FALLBACK)))
    (fun _ => _ <- emit (ELog "Perplexity API error") ;; ret (Str CHAT_FALLBACK)).

(** [`${m.role === "user" ? "User" : "AI"}: ${m.content}`] *)
Definition render (m : chat_msg) : string :=
  (match role m with Str r => if String.eqb r "user" then "User" else "AI" | _ => "AI" end)
  ++ ": " ++ js_to_string (content m).

Fixpoint join_lines (l : list string) : string :=
  match l with
  | [] => ""
  | [x] => x
  | x :: r => x ++ nl ++ join_lines r
  end.

(** [messages.slice(-5)] *)
Definition last5 {A} (l : list A) : list A := skipn (length l - 5) l.

(** The template literal [aiPrompt], for the rendered messages. *)
Definition chat_prompt (msgs : list chat_msg) : string :=
  getAIPersonality ++ nl ++ "Chat History:" ++ nl ++
  join_lines (map render msgs) ++ nl ++
  "AI (reply max 100 tokens, aim ~30 tokens):".

Definition no_message : chat_msg := {| role := Undef; content := Undef |}.

(** [askPerplexityChat(messages)]; [None] is a missing ([undefined] or
    [null]) argument. *)
Definition askPerplexityChat (messages : option (list chat_msg)) : M jsv :=
  try_catch
    (match messages with
     | None | Some [] => ret (Str "No messages provided")
     | Some ms =>
         let userMessage := content (last ms no_message) in
         commandResponse <- getPreassignedCommand userMessage ;;
         if js_truthy commandResponse then ret commandResponse
         else
           let aiPrompt := chat_prompt (last5 ms) in
           aiReply <- queryPerplexityAI aiPrompt 100 ;;
           call_trim aiReply
     end)
    (fun _ => _ <- emit (ELog "askPerplexityChat error") ;; ret (Str CHAT_FALLBACK)).

End Chat.

(* ================================================================= *)
(** ** perplexity-recommend-handler.js (first definition) *)

Section Recommend.
Context {NC : NumberConversions}.

Definition RECOMMEND_FALLBACK := "AI failed to provide a recommendation.".

(** [await fetch(...)] then [await response.json()]: fetch rejects on a
    network failure only, [json()] rejects on a body that is not JSON. *)
Definition fetch_json (prompt : string) (maxTokens : Z) : M jsv :=
  fun o =>
    ([EQuery prompt maxTokens],
     match o prompt maxTokens with
     | NetErr => Throw (error_object "FetchError" "request failed")
     | Malformed _ => Throw (error_object "SyntaxError" "Unexpected token in JSON")
     | Resp data => Ok data
     end).

(** The template literal [prompt]. *)
Definition recommend_prompt (personality ph moisture temperature desiredCrop : jsv)
  : string :=
  nl ++ "You are an agriculture AI assistant. Your personality is: " ++
  js_to_string personality ++ nl ++
  "Given the following soil data:" ++ nl ++
  "- pH: " ++ js_to_string ph ++ nl ++
  "- Moisture: " ++ js_to_string moisture ++ nl ++
  "- Temperature: " ++ js_to_string temperature ++ nl ++
  "- Desired Crop: " ++ js_to_string (js_or desiredCrop (Str "any suitable crop")) ++ nl ++
  nl ++
  "Provide a professional, easy-to-understand crop or soil recommendation." ++ nl.

(** [askPerplexityRecommend(params)] for an object [params] (its fields).
    [aiPersonality] is the default export of aiPersonality.js, a string, so
    [aiPersonality.description] reads [undefined]. *)
Definition askPerplexityRecommend (params : list (string * jsv)) : M jsv :=
  let ph := object_get params "ph" in
  let moisture := object_get params "moisture" in
  let temperature := object_get params "temperature" in
  let desiredCrop := object_get params "desiredCrop" in
  try_catch
    (personality <- get_prop (Str AI_PERSONALITY_DESCRIPTION) "description" ;;
     let prompt := recommend_prompt personality ph moisture temperature desiredCrop in
     data <- fetch_json prompt 100 ;;
     answer <- get_prop data "answer" ;;
     trimmed <- match answer with
                | Undef | Null => ret Undef
                | _ => call_trim answer
                end ;;
     ret (js_or trimmed (Str RECOMMEND_FALLBACK)))
    (fun _ => _ <- emit (ELog "Error in Perplexity recommendation") ;;
              ret (Str RECOMMEND_FALLBACK)).

End Recommend.

(* ================================================================= *)
(** ** ruleEngine on a heap of arrays

    [let recommendations = []] allocates a fresh array, every [push]
    updates that array in place, and its reference is returned. *)

Definition heap : Type := list (list string).

Definition alloc_array (h : heap) : heap * nat := (app h [[]], length h).

Fixpoint heap_update (l : nat) (f : list string -> list string) (h : heap) : heap :=
  match h, l with
  | [], _ => []
  | x :: r, O => f x :: r
  | x :: r, S l' => x :: heap_update l' f r
  end.

Definition contents (h : heap) (l : nat) : option (list string) := nth_error h l.

Section HeapEngines.
Context {NC : NumberConversions}.

Definition progressive_call (ph moisture temperature : jsv) (h : heap) : heap * nat :=
  let (h, recommendations) := alloc_array h in
  let h := heap_update recommendations (Progressive.basic_ph ph) h in
  let h := heap_update recommendations (Progressive.basic_moisture moisture) h in
  let h := heap_update recommendations (Progressive.basic_temperature temperature) h in
  let h := heap_update recommendations (Progressive.advanced_ph ph) h in
  let h := heap_update recommendations (Progressive.advanced_moisture moisture) h in
  let h := heap_update recommendations (Progressive.advanced_temperature temperature) h in
  let h := heap_update recommendations (Progressive.scientific_nutrient ph) h in
  let h := heap_update recommendations
             (Progressive.scientific_pest moisture temperature) h in
  let h := heap_update recommendations (Progressive.scientific_crops ph moisture) h in
  (h, recommendations).

Definition basic_call (ph moisture temperature : jsv) (h : heap) : heap * nat :=
  let (h, recommendations) := alloc_array h in
  let h := heap_update recommendations (Basic.basic_ph ph) h in
  let h := heap_update recommendations (Basic.basic_moisture moisture) h in
  let h := heap_update recommendations (Basic.basic_temperature temperature) h in
  (h, recommendations).

End HeapEngines.

Definition no_numbers : NumberConversions :=
  {| number_to_string := fun _ => "NaN"; string_to_number := fun _ => None |}.

(* ================================================================= *)
(** ** server.js: the routes that call the handlers (src/unnamed/part_003) *)



Section RecommendRoute.
Context {NC : NumberConversions}.

(** [ruleEngine] as imported from ruleEngine.js (either variant). *)
Variable ruleEngine : jsv -> jsv -> jsv -> list string.


End RecommendRoute.




Section ChatRoute.
Context {NC : NumberConversions}.

(** The SQL comparison [user_id = ?] between a stored value and the
    parameter, left abstract. *)
Variable user_id_eq : jsv -> jsv -> bool.









End ChatRoute.

(* ================================================================= *)
(** ** Vocabulary of the statements *)

(** Messages counted in a set. *)
Definition count_in (S l : list string) : nat :=
  length (filter (fun x => existsb (String.eqb x) S) l).

Definition PH_TIER : list string :=
  [Progressive.ACIDIC; Progressive.ALKALINE; Progressive.PH_GOOD].
Definition MOISTURE_TIER : list string :=
  [Progressive.DRY; Progressive.WET; Progressive.MOISTURE_GOOD].
Definition BASIC_PH_TIER : list string :=
  [Basic.ACIDIC; Basic.ALKALINE; Basic.PH_OPTIMAL].
Definition BASIC_MOISTURE_TIER : list string :=
  [Basic.DRY; Basic.WATERLOGGED; Basic.MOISTURE_GOOD].

Definition TEMP_TIER : list string :=
  [Progressive.TEMP_LOW; Progressive.TEMP_HIGH; Progressive.TEMP_GOOD].
Definition TEMP_ADVANCED : list string :=
  [Progressive.COLD_STRESS; Progressive.HEAT_STRESS].
Definition BASIC_TEMP_TIER : list string :=
  [Basic.TEMP_LOW; Basic.TEMP_HIGH; Basic.TEMP_GOOD].

Definition ADVANCED_AND_SCIENTIFIC_WARNINGS : list string :=
  [Progressive.VERY_ACIDIC; Progressive.STRONGLY_ALKALINE;
   Progressive.EXTREMELY_DRY; Progressive.ROOT_ROT;
   Progressive.COLD_STRESS; Progressive.HEAT_STRESS;
   Progressive.NUTRIENT; Progressive.PEST].

(** The requests sent to the completion collaborator in a trace. *)
Fixpoint queries (t : list event) : list (string * Z) :=
  match t with
  | [] => []
  | EQuery p n :: r => (p, n) :: queries r
  | _ :: r => queries r
  end.

(** The answer the collaborator delivers: a non-empty string in the
    [answer] field of a JSON object. *)
Definition answer_of (out : outcome) : option string :=
  match out with
  | Resp (Obj fs) =>
      match object_get fs "answer" with
      | Str s => if String.eqb s "" then None else Some s
      | _ => None
      end
  | _ => None
  end.

(** The collaborator fails: network error, a body that is not JSON, a body
    without an [answer], or an answer that is not a non-empty string. *)
Definition collaborator_fails (out : outcome) : Prop := answer_of out = None.

(** [message.trim().toLowerCase()] is not a key of the command table (own
    or inherited). *)
Definition misses_command (s : string) : bool :=
  negb (js_truthy (object_get commands (str_lower (str_trim s)))).

Definition turn (r : string) (i : string) : chat_msg :=
  {| role := Str r; content := Str ("turn " ++ i) |}.

Definition sample_history : list chat_msg :=
  [turn "user" "1"; turn "assistant" "2"; turn "user" "3"; turn "assistant" "4";
   turn "user" "5"; turn "assistant" "6"; turn "user" "7"; turn "assistant" "8"].

Definition sample_question : string := "which crop suits clay soil".

Definition sample_message : chat_msg :=
  {| role := Str "user"; content := Str sample_question |}.

Definition contains (needle hay : string) : bool :=
  match String.index 0 needle hay with Some _ => true | None => false end.

Definition always_down : oracle := fun _ _ => NetErr.

Definition shouted_help : string := (nl ++ "  HeLP ")%string.

Definition empty_answer : oracle := fun _ _ => Resp (Obj [("answer", Str "")]).

(* ================================================================= *)
(** * Properties of the rule engines *)

Local Open Scope list_scope.

Lemma count_in_app (S a b : list string) :
  count_in S (a ++ b) = (count_in S a + count_in S b)%nat.
Proof. unfold count_in. rewrite filter_app, length_app. reflexivity. Qed.

Lemma count_in_nil (S : list string) : count_in S [] = 0%nat.
Proof. reflexivity. Qed.

Lemma js_lt_qnum {NC : NumberConversions} (q c : Q) :
  js_lt (qnum q) c = true <-> (q < c)%Q.
Proof.
  unfold js_lt, Qltb; simpl. rewrite negb_true_iff.
  split; intro H.
  - apply Qnot_le_lt. intro H'. apply Qle_bool_iff in H'. congruence.
  - destruct (Qle_bool c q) eqn:E; [|reflexivity].
    apply Qle_bool_iff in E. exfalso. apply (Qlt_not_le q c); assumption.
Qed.

Lemma js_gt_qnum {NC : NumberConversions} (q c : Q) :
  js_gt (qnum q) c = true <-> (c < q)%Q.
Proof.
  unfold js_gt, Qltb; simpl. rewrite negb_true_iff.
  split; intro H.
  - apply Qnot_le_lt. intro H'. apply Qle_bool_iff in H'. congruence.
  - destruct (Qle_bool q c) eqn:E; [|reflexivity].
    apply Qle_bool_iff in E. exfalso. apply (Qlt_not_le c q); assumption.
Qed.

(** [undefined] compares false against every number. *)
Lemma js_compare_undefined {NC : NumberConversions} (c : Q) :
  js_lt Undef c = false /\ js_gt Undef c = false /\
  js_le Undef c = false /\ js_ge Undef c = false.
Proof. repeat split. Qed.

Module ProgressiveFacts.
Import Progressive.

Ltac decide_blocks :=
  unfold basic_ph, basic_moisture, basic_temperature, advanced_ph,
    advanced_moisture, advanced_temperature, scientific_nutrient,
    scientific_pest, scientific_crops, push;
  repeat match goal with |- context [if ?b then _ else _] => destruct b end;
  first [reflexivity | rewrite app_nil_r; reflexivity].

Section Facts.
Context {NC : NumberConversions}.

(** Every block only appends to [recommendations]. *)
Lemma ruleEngine_app (ph moisture temperature : jsv) :
  ruleEngine ph moisture temperature =
  basic_ph ph [] ++ basic_moisture moisture [] ++ basic_temperature temperature [] ++
  advanced_ph ph [] ++ advanced_moisture moisture [] ++
  advanced_temperature temperature [] ++ scientific_nutrient ph [] ++
  scientific_pest moisture temperature [] ++ scientific_crops ph moisture [].
Proof.
  assert (B : forall (f : list string -> list string) (r : list string),
             (forall r, f r = r ++ f []) -> f r = r ++ f []) by auto.
  unfold ruleEngine.
  rewrite (B (scientific_crops ph moisture)) by (intro; decide_blocks).
  rewrite (B (scientific_pest moisture temperature)) by (intro; decide_blocks).
  rewrite (B (scientific_nutrient ph)) by (intro; decide_blocks).
  rewrite (B (advanced_temperature temperature)) by (intro; decide_blocks).
  rewrite (B (advanced_moisture moisture)) by (intro; decide_blocks).
  rewrite (B (advanced_ph ph)) by (intro; decide_blocks).
  rewrite (B (basic_temperature temperature)) by (intro; decide_blocks).
  rewrite (B (basic_moisture moisture)) by (intro; decide_blocks).
  rewrite <- !app_assoc. reflexivity.
Qed.

Lemma basic_ph_nil (ph : jsv) :
  basic_ph ph [] = [if js_lt ph 6 then ACIDIC else if js_gt ph 8 then ALKALINE else PH_GOOD].
Proof. decide_blocks. Qed.

Lemma basic_moisture_nil (moisture : jsv) :
  basic_moisture moisture [] =
  [if js_lt moisture 30 then DRY else if js_gt moisture 70 then WET else MOISTURE_GOOD].
Proof. decide_blocks. Qed.

End Facts.
End ProgressiveFacts.

Module BasicFacts.
Import Basic.

Ltac decide_blocks :=
  unfold basic_ph, basic_moisture, basic_temperature, push;
  repeat match goal with |- context [if ?b then _ else _] => destruct b end;
  first [reflexivity | rewrite app_nil_r; reflexivity].

Section Facts.
Context {NC : NumberConversions}.

Lemma basic_ruleEngine_app (ph moisture temperature : jsv) :
  ruleEngine ph moisture temperature =
  basic_ph ph [] ++ basic_moisture moisture [] ++ basic_temperature temperature [].
Proof. unfold ruleEngine. decide_blocks. Qed.

Lemma basic_engine_ph_nil (ph : jsv) :
  basic_ph ph [] = [if js_lt ph 6 then ACIDIC else if js_gt ph 8 then ALKALINE else PH_OPTIMAL].
Proof. decide_blocks. Qed.

Lemma basic_engine_moisture_nil (moisture : jsv) :
  basic_moisture moisture [] =
  [if js_lt moisture 30 then DRY else if js_gt moisture 70 then WATERLOGGED
   else MOISTURE_GOOD].
Proof. decide_blocks. Qed.

End Facts.
End BasicFacts.

Ltac count_blocks tac :=
  repeat match goal with
         | |- context [count_in ?S ?l] =>
             first [ replace (count_in S l) with 0%nat by tac
                   | replace (count_in S l) with 1%nat by tac ]
         end.

(** C1: the first message of [ruleEngine(ph, moisture, temperature)] is the
    acidic message when [ph < 6], the alkaline one when [ph > 8] and the
    optimal one otherwise (in particular at [ph = 6] and [ph = 8]); the
    second is the dry message when [moisture < 30], the waterlogged one when
    [moisture > 70] and the good-range one otherwise (in particular at 30
    and 70); exactly one pH-tier and exactly one moisture-tier message occur.
    [<] and [>] are JavaScript's comparisons, so this covers every argument;
    it holds for the progressive engine and for the basic one. *)
Theorem ruleEngine_ph_moisture_tiers {NC : NumberConversions}
  (ph moisture temperature : jsv) :
  let r := Progressive.ruleEngine ph moisture temperature in
  let b := Basic.ruleEngine ph moisture temperature in
  nth_error r 0 =
    Some (if js_lt ph 6 then Progressive.ACIDIC
          else if js_gt ph 8 then Progressive.ALKALINE else Progressive.PH_GOOD) /\
  nth_error r 1 =
    Some (if js_lt moisture 30 then Progressive.DRY
          else if js_gt moisture 70 then Progressive.WET
          else Progressive.MOISTURE_GOOD) /\
  count_in PH_TIER r = 1%nat /\ count_in MOISTURE_TIER r = 1%nat /\
  nth_error b 0 =
    Some (if js_lt ph 6 then Basic.ACIDIC
          else if js_gt ph 8 then Basic.ALKALINE else Basic.PH_OPTIMAL) /\
  nth_error b 1 =
    Some (if js_lt moisture 30 then Basic.DRY
          else if js_gt moisture 70 then Basic.WATERLOGGED
          else Basic.MOISTURE_GOOD) /\
  count_in BASIC_PH_TIER b = 1%nat /\ count_in BASIC_MOISTURE_TIER b = 1%nat /\
  nth_error (Progressive.ruleEngine (qnum 6) moisture temperature) 0 =
    Some Progressive.PH_GOOD /\
  nth_error (Progressive.ruleEngine (qnum 8) moisture temperature) 0 =
    Some Progressive.PH_GOOD /\
  nth_error (Progressive.ruleEngine ph (qnum 30) temperature) 1 =
    Some Progressive.MOISTURE_GOOD /\
  nth_error (Progressive.ruleEngine ph (qnum 70) temperature) 1 =
    Some Progressive.MOISTURE_GOOD /\
  nth_error (Basic.ruleEngine (qnum 6) moisture temperature) 0 = Some Basic.PH_OPTIMAL /\
  nth_error (Basic.ruleEngine (qnum 8) moisture temperature) 0 = Some Basic.PH_OPTIMAL /\
  nth_error (Basic.ruleEngine ph (qnum 30) temperature) 1 = Some Basic.MOISTURE_GOOD /\
  nth_error (Basic.ruleEngine ph (qnum 70) temperature) 1 = Some Basic.MOISTURE_GOOD.
Proof.
  intros r b; subst r b.
  rewrite !ProgressiveFacts.ruleEngine_app, !BasicFacts.basic_ruleEngine_app.
  rewrite !ProgressiveFacts.basic_ph_nil, !ProgressiveFacts.basic_moisture_nil.
  rewrite !BasicFacts.basic_engine_ph_nil, !BasicFacts.basic_engine_moisture_nil.
  repeat split.
  all: try reflexivity.
  all: rewrite !count_in_app;
       first [ count_blocks ProgressiveFacts.decide_blocks; reflexivity
             | count_blocks BasicFacts.decide_blocks; reflexivity ].
Qed.

Lemma count_in_zero (S l : list string) :
  count_in S l = 0%nat -> forall x, In x S -> ~ In x l.
Proof.
  unfold count_in. intros H x HS Hl.
  apply length_zero_iff_nil in H.
  assert (Hx : In x (filter (fun y => existsb (String.eqb y) S) l)).
  { apply filter_In. split; [assumption|].
    apply existsb_exists. exists x. split; [assumption | apply String.eqb_refl]. }
  rewrite H in Hx. destruct Hx.
Qed.

Lemma is_undefined_iff (v : jsv) : is_undefined v = true <-> v = Undef.
Proof. destruct v; simpl; split; congruence. Qed.

Lemma basic_temperature_count {NC : NumberConversions} (S : list string) (t : jsv) :
  incl TEMP_TIER S ->
  count_in S (Progressive.basic_temperature t []) = (if is_undefined t then 0 else 1)%nat.
Proof.
  intro HS. unfold Progressive.basic_temperature.
  destruct (is_undefined t); simpl; [reflexivity|].
  assert (M : forall x, In x TEMP_TIER -> count_in S [x] = 1%nat).
  { intros x Hx. unfold count_in; simpl.
    assert (E : existsb (String.eqb x) S = true).
    { apply existsb_exists. exists x. split; [apply HS; exact Hx | apply String.eqb_refl]. }
    rewrite E. reflexivity. }
  unfold push; simpl.
  repeat match goal with |- context [if ?b then _ else _] => destruct b end;
    apply M; simpl; auto.
Qed.

(** The progressive engine: one basic temperature message exactly when the
    temperature is not [undefined], and no temperature message of either
    tier when it is. *)
Lemma progressive_temperature_tier {NC : NumberConversions}
  (ph moisture temperature : jsv) :
  count_in TEMP_TIER (Progressive.ruleEngine ph moisture temperature) =
    (if is_undefined temperature then 0 else 1)%nat /\
  (count_in (TEMP_TIER ++ TEMP_ADVANCED)
     (Progressive.ruleEngine ph moisture temperature) = 0%nat
   <-> temperature = Undef).
Proof.
  rewrite ProgressiveFacts.ruleEngine_app, !count_in_app.
  rewrite !basic_temperature_count by (intros x Hx; rewrite ?in_app_iff; auto).
  split.
  - count_blocks ProgressiveFacts.decide_blocks. simpl. lia.
  - rewrite <- is_undefined_iff. destruct (is_undefined temperature) eqn:E.
    + apply is_undefined_iff in E. subst temperature.
      split; [reflexivity|]. intros _.
      count_blocks ProgressiveFacts.decide_blocks. reflexivity.
    + split; [intro H | discriminate]. exfalso. simpl in H. lia.
Qed.

(** C3 (code_bug): the basic engine gates its temperature tier on
    [if (temperature)], a truthiness test, so the defined temperature 0
    yields no temperature message: [ruleEngine(6.5, 50, 0)] returns only the
    pH and moisture messages.  The progressive engine, which tests
    [temperature !== undefined], emits exactly one temperature message
    there, as it does for every temperature other than [undefined]. *)
Theorem basic_engine_drops_zero_temperature {NC : NumberConversions} :
  Basic.ruleEngine (qnum (13 # 2)) (qnum 50) (qnum 0) =
    [Basic.PH_OPTIMAL; Basic.MOISTURE_GOOD] /\
  count_in BASIC_TEMP_TIER (Basic.ruleEngine (qnum (13 # 2)) (qnum 50) (qnum 0)) = 0%nat /\
  qnum 0 <> Undef /\
  count_in TEMP_TIER (Progressive.ruleEngine (qnum (13 # 2)) (qnum 50) (qnum 0)) = 1%nat.
Proof.
  split; [vm_compute; reflexivity|].
  split; [vm_compute; reflexivity|].
  split; [discriminate|].
  vm_compute. reflexivity.
Qed.

(** C5 (counterexample): [ruleEngine(5.0, 25, 5)] does not contain the
    "extremely dry" message: that rule needs [moisture < 20]. *)
Lemma ruleEngine_5_25_5_not_extremely_dry :
  ~ In Progressive.EXTREMELY_DRY
      (@Progressive.ruleEngine no_numbers (qnum 5) (qnum 25) (qnum 5)).
Proof.
  apply (count_in_zero [Progressive.EXTREMELY_DRY]);
    [vm_compute; reflexivity | left; reflexivity].
Qed.

(** C5 (amended): [ruleEngine(5.0, 25, 5)] is exactly the acidic, dry,
    low-temperature, very-acidic, severe-cold-stress and nutrient messages,
    in that order: neither the "extremely dry" nor the crop-suitability
    message occurs. *)
Theorem ruleEngine_5_25_5 {NC : NumberConversions} :
  Progressive.ruleEngine (qnum 5) (qnum 25) (qnum 5) =
    [Progressive.ACIDIC; Progressive.DRY; Progressive.TEMP_LOW;
     Progressive.VERY_ACIDIC; Progressive.COLD_STRESS; Progressive.NUTRIENT] /\
  count_in [Progressive.EXTREMELY_DRY; Progressive.CROPS]
    (Progressive.ruleEngine (qnum 5) (qnum 25) (qnum 5)) = 0%nat.
Proof. split; vm_compute; reflexivity. Qed.

(** C8: [ruleEngine(6.5, 50, 25)] is exactly the optimal-pH, good-moisture,
    favourable-temperature and crop-suitability messages; no advanced or
    scientific warning occurs. *)
Theorem ruleEngine_6_5_50_25 {NC : NumberConversions} :
  Progressive.ruleEngine (qnum (13 # 2)) (qnum 50) (qnum 25) =
    [Progressive.PH_GOOD; Progressive.MOISTURE_GOOD; Progressive.TEMP_GOOD;
     Progressive.CROPS] /\
  count_in ADVANCED_AND_SCIENTIFIC_WARNINGS
    (Progressive.ruleEngine (qnum (13 # 2)) (qnum 50) (qnum 25)) = 0%nat.
Proof. split; vm_compute; reflexivity. Qed.

(** C7: with [temperature] undefined every comparison of it is false, so
    the advanced temperature block (and the pest block) change nothing, the
    engine returns normally with the pH and moisture messages only, and
    neither "severe cold stress" nor "heat stress" occurs. *)
Theorem ruleEngine_undefined_temperature {NC : NumberConversions}
  (ph moisture : jsv) :
  (forall c, js_lt Undef c = false /\ js_gt Undef c = false) /\
  (forall r, Progressive.advanced_temperature Undef r = r) /\
  Progressive.ruleEngine ph moisture Undef =
    Progressive.basic_ph ph [] ++ Progressive.basic_moisture moisture [] ++
    Progressive.advanced_ph ph [] ++ Progressive.advanced_moisture moisture [] ++
    Progressive.scientific_nutrient ph [] ++
    Progressive.scientific_crops ph moisture [] /\
  ~ In Progressive.COLD_STRESS (Progressive.ruleEngine ph moisture Undef) /\
  ~ In Progressive.HEAT_STRESS (Progressive.ruleEngine ph moisture Undef).
Proof.
  assert (Hcount : count_in TEMP_ADVANCED (Progressive.ruleEngine ph moisture Undef) = 0%nat).
  { rewrite ProgressiveFacts.ruleEngine_app, !count_in_app.
    count_blocks ProgressiveFacts.decide_blocks. reflexivity. }
  split; [intro c; split; reflexivity|].
  split; [intro r; reflexivity|].
  split.
  - rewrite ProgressiveFacts.ruleEngine_app.
    unfold Progressive.basic_temperature, Progressive.advanced_temperature,
      Progressive.scientific_pest.
    simpl negb. rewrite !andb_false_r. simpl. reflexivity.
  - split; apply (count_in_zero _ _ Hcount); simpl; auto.
Qed.

Lemma heap_update_last (h : heap) (f : list string -> list string) (x : list string) :
  heap_update (length h) f (h ++ [x]) = h ++ [f x].
Proof. induction h as [|y h IH]; simpl; [reflexivity | now rewrite IH]. Qed.

Lemma progressive_call_eq {NC : NumberConversions} (ph moisture temperature : jsv) (h : heap) :
  progressive_call ph moisture temperature h =
  (h ++ [Progressive.ruleEngine ph moisture temperature], length h).
Proof. unfold progressive_call, alloc_array. rewrite !heap_update_last. reflexivity. Qed.

Lemma basic_call_eq {NC : NumberConversions} (ph moisture temperature : jsv) (h : heap) :
  basic_call ph moisture temperature h =
  (h ++ [Basic.ruleEngine ph moisture temperature], length h).
Proof. unfold basic_call, alloc_array. rewrite !heap_update_last. reflexivity. Qed.

Lemma nth_error_app_last (h : heap) (x : list string) :
  nth_error (h ++ [x]) (length h) = Some x.
Proof. rewrite nth_error_app2, Nat.sub_diag by lia. reflexivity. Qed.

Lemma two_calls (call : heap -> heap * nat) (res : list string) :
  (forall h, call h = (h ++ [res], length h)) ->
  forall h,
  let (h1, l1) := call h in
  let (h2, l2) := call h1 in
  contents h2 l1 = Some res /\ contents h2 l2 = Some res /\ l1 <> l2 /\
  firstn (length h) h2 = h.
Proof.
  intros Hcall h. rewrite Hcall, Hcall. unfold contents.
  repeat split.
  - rewrite nth_error_app1 by (rewrite length_app; simpl; lia).
    apply nth_error_app_last.
  - apply nth_error_app_last.
  - rewrite length_app; simpl; lia.
  - rewrite <- app_assoc, firstn_app, Nat.sub_diag, firstn_all. simpl. apply app_nil_r.
Qed.

(** C9: two calls of [ruleEngine] with the same arguments, on any heap,
    return two freshly allocated arrays with the same contents, equal to
    [ruleEngine]'s pure result (which depends on the arguments only), and
    leave every previously allocated array unchanged; for both engines. *)
Theorem ruleEngine_deterministic {NC : NumberConversions}
  (ph moisture temperature : jsv) (h : heap) :
  (let (h1, l1) := progressive_call ph moisture temperature h in
   let (h2, l2) := progressive_call ph moisture temperature h1 in
   contents h2 l1 = Some (Progressive.ruleEngine ph moisture temperature) /\
   contents h2 l2 = Some (Progressive.ruleEngine ph moisture temperature) /\
   l1 <> l2 /\ firstn (length h) h2 = h) /\
  (let (h1, l1) := basic_call ph moisture temperature h in
   let (h2, l2) := basic_call ph moisture temperature h1 in
   contents h2 l1 = Some (Basic.ruleEngine ph moisture temperature) /\
   contents h2 l2 = Some (Basic.ruleEngine ph moisture temperature) /\
   l1 <> l2 /\ firstn (length h) h2 = h).
Proof.
  split; apply two_calls; intro; [apply progressive_call_eq | apply basic_call_eq].
Qed.

(* ================================================================= *)
(** * Properties of the chat and recommendation handlers *)

Lemma queries_app (a b : list event) : queries (a ++ b) = queries a ++ queries b.
Proof. induction a as [|[] a IH]; simpl; rewrite ?IH; reflexivity. Qed.

Section Monad.
Context {A B : Type}.

Lemma bind_ok (m : M A) (k : A -> M B) (o : oracle) t a :
  m o = (t, Ok a) -> bind m k o = (t ++ fst (k a o), snd (k a o)).
Proof. intro E. unfold bind. rewrite E. destruct (k a o). reflexivity. Qed.

Lemma bind_throw (m : M A) (k : A -> M B) (o : oracle) t e :
  m o = (t, Throw e) -> bind m k o = (t, Throw e).
Proof. intro E. unfold bind. rewrite E. reflexivity. Qed.

Lemma try_ok (m : M A) (h : jsv -> M A) (o : oracle) t a :
  m o = (t, Ok a) -> try_catch m h o = (t, Ok a).
Proof. intro E. unfold try_catch. rewrite E. reflexivity. Qed.

Lemma try_throw (m : M A) (h : jsv -> M A) (o : oracle) t e :
  m o = (t, Throw e) -> try_catch m h o = (t ++ fst (h e o), snd (h e o)).
Proof. intro E. unfold try_catch. rewrite E. destruct (h e o). reflexivity. Qed.

End Monad.

Lemma str_trim_fallback : str_trim CHAT_FALLBACK = CHAT_FALLBACK.
Proof. reflexivity. Qed.

Section ChatFacts.
Context {NC : NumberConversions}.

Lemma getPreassignedCommand_str (s : string) (o : oracle) :
  getPreassignedCommand (Str s) o =
  ([ECommandLookup (Str s)], Ok (js_or (object_get commands (str_lower (str_trim s))) Null)).
Proof. reflexivity. Qed.

Lemma getPreassignedCommand_other (v : jsv) (o : oracle) :
  (forall s, v <> Str s) ->
  getPreassignedCommand v o = ([ECommandLookup v], Throw type_error).
Proof. intro H. destruct v; try reflexivity. exfalso. eapply H. reflexivity. Qed.

(** [queryPerplexityAI] sends exactly one request and returns normally;
    the value is the answer when there is one, and on a failure it is the
    fallback string or a value that is not a string. *)
Lemma queryPerplexityAI_spec (p : string) (n : Z) (o : oracle) :
  exists t r,
    queryPerplexityAI p n o = (EQuery p n :: t, Ok r) /\ queries t = [] /\
    (forall s, answer_of (o p n) = Some s -> r = Str s) /\
    (answer_of (o p n) = None ->
     match r with Str s => s = CHAT_FALLBACK | _ => True end).
Proof.
  unfold queryPerplexityAI, try_catch, bind, axios_post_data, answer_of.
  destruct (o p n) as [|raw|data]; simpl;
    [| | destruct data; simpl;
         [| | | | | | destruct (object_get fields "answer")
                       as [| |b|[q|]|s|l|fs|h] eqn:A; simpl |]];
    unfold js_or, js_truthy; simpl;
    try destruct b; try destruct (Qeq_bool q 0); try destruct (String.eqb s "") eqn:E;
    simpl; eexists _, _; (split; [reflexivity|]);
    repeat split; intros; try discriminate; try congruence; try reflexivity; simpl; auto.
Qed.

(** The messages argument as history followed by the newest message. *)
Lemma askPerplexityChat_snoc (hist : list chat_msg) (m : chat_msg) (o : oracle) :
  askPerplexityChat (Some (hist ++ [m])) o =
  try_catch
    (commandResponse <- getPreassignedCommand (content m) ;;
     if js_truthy commandResponse then ret commandResponse
     else
       aiReply <- queryPerplexityAI (chat_prompt (last5 (hist ++ [m]))) 100 ;;
       call_trim aiReply)
    (fun _ => _ <- emit (ELog "askPerplexityChat error") ;; ret (Str CHAT_FALLBACK)) o.
Proof.
  unfold askPerplexityChat.
  destruct (hist ++ [m]) as [|a l] eqn:E.
  - exfalso. eapply app_cons_not_nil. symmetry. exact E.
  - rewrite <- E, last_last. reflexivity.
Qed.

End ChatFacts.

Lemma try_catch_returns {A : Type} (m : M A) (h : jsv -> M A) (o : oracle) :
  (forall e, exists v, snd (h e o) = Ok v) ->
  exists v, snd (try_catch m h o) = Ok v.
Proof.
  intro Hh. unfold try_catch. destruct (m o) as [t [a|e]].
  - exists a. reflexivity.
  - destruct (Hh e) as [v Hv]. destruct (h e o). exists v. exact Hv.
Qed.

Section ChatTheorems.
Context {NC : NumberConversions}.

(** A message that misses the command table is sent, with the last five
    messages, in exactly one request. *)
Lemma chat_query_trace (hist : list chat_msg) (r : jsv) (s : string) (o : oracle) :
  misses_command s = true ->
  queries (fst (askPerplexityChat (Some (hist ++ [{| role := r; content := Str s |}])) o)) =
  [(chat_prompt (last5 (hist ++ [{| role := r; content := Str s |}])), 100%Z)].
Proof.
  intro Hmiss. unfold misses_command in Hmiss. apply negb_true_iff in Hmiss.
  rewrite askPerplexityChat_snoc. simpl content.
  destruct (queryPerplexityAI_spec
              (chat_prompt (last5 (hist ++ [{| role := r; content := Str s |}]))) 100 o)
    as (t & a & Hq & Ht & _ & _).
  assert (Hcmd : js_truthy (js_or (object_get commands (str_lower (str_trim s))) Null) = false).
  { unfold js_or. rewrite Hmiss. reflexivity. }
  destruct (call_trim a o) as [t' res] eqn:Htrim.
  assert (Ht' : t' = []) by (destruct a; unfold call_trim, ret, throw in Htrim; congruence). subst t'.
  destruct res as [v|e].
  - erewrite try_ok.
    2:{ erewrite bind_ok by apply getPreassignedCommand_str. rewrite Hcmd.
        erewrite bind_ok by exact Hq. rewrite Htrim. reflexivity. }
    simpl. rewrite !queries_app, Ht. reflexivity.
  - erewrite try_throw.
    2:{ erewrite bind_ok by apply getPreassignedCommand_str. rewrite Hcmd.
        erewrite bind_ok by exact Hq. rewrite Htrim. reflexivity. }
    simpl. rewrite !queries_app, Ht. reflexivity.
Qed.

End ChatTheorems.

Section ChatClaims.
Context {NC : NumberConversions}.

(** C10: with the messages argument missing or empty,
    [askPerplexityChat] returns "No messages provided" with an empty trace:
    neither the command table nor the completion collaborator is used. *)
Theorem askPerplexityChat_no_messages (o : oracle) :
  askPerplexityChat None o = ([], Ok (Str "No messages provided")) /\
  askPerplexityChat (Some []) o = ([], Ok (Str "No messages provided")).
Proof. split; reflexivity. Qed.

(** C6: when the newest message trims and lower-cases to "help", the
    handler returns the canned help text of the command table; the only
    event is the command lookup, the completion collaborator is not
    called. *)
Theorem askPerplexityChat_help (hist : list chat_msg) (r : jsv) (s : string)
  (o : oracle) (Hhelp : str_lower (str_trim s) = "help") :
  askPerplexityChat (Some (hist ++ [{| role := r; content := Str s |}])) o =
  ([ECommandLookup (Str s)], Ok (Str HELP)).
Proof.
  rewrite askPerplexityChat_snoc. simpl content.
  erewrite try_ok; [reflexivity|].
  erewrite bind_ok by apply getPreassignedCommand_str.
  rewrite Hhelp. reflexivity.
Qed.

(** C4 (amended): with 8 earlier turns and a newest user message that
    misses the command table, the one request sent to the completion
    collaborator carries the prompt built from [messages.slice(-5)]: the 4
    most recent earlier turns in their order, then the new message as the
    last "User:" line. *)
Theorem askPerplexityChat_history_window (hist : list chat_msg) (s : string)
  (o : oracle) (Hlen : length hist = 8%nat) (Hmiss : misses_command s = true) :
  queries (fst (askPerplexityChat
                  (Some (hist ++ [{| role := Str "user"; content := Str s |}])) o)) =
    [(chat_prompt (skipn 4 hist ++ [{| role := Str "user"; content := Str s |}]), 100%Z)] /\
  length (skipn 4 hist) = 4%nat /\
  render {| role := Str "user"; content := Str s |} = ("User: " ++ s)%string.
Proof.
  split; [|split; [rewrite length_skipn, Hlen; reflexivity | reflexivity]].
  rewrite chat_query_trace by exact Hmiss.
  unfold last5. rewrite length_app, Hlen.
  change (8 + length [_] - 5)%nat with 4%nat.
  rewrite skipn_app, Hlen. reflexivity.
Qed.

(** C2: [askPerplexityChat] and [askPerplexityRecommend] return normally
    whatever the collaborator does; when it fails, the chat handler returns
    exactly "AI failed to respond" whenever it consulted the collaborator,
    and the recommendation handler exactly
    "AI failed to provide a recommendation.". *)
Theorem handlers_fallback_on_failure (o : oracle) :
  (forall msgs, exists v, snd (askPerplexityChat msgs o) = Ok v) /\
  (forall params, exists v, snd (askPerplexityRecommend params o) = Ok v) /\
  ((forall p n, collaborator_fails (o p n)) ->
   (forall msgs, queries (fst (askPerplexityChat msgs o)) <> [] ->
      snd (askPerplexityChat msgs o) = Ok (Str CHAT_FALLBACK)) /\
   (forall params, snd (askPerplexityRecommend params o) = Ok (Str RECOMMEND_FALLBACK))).
Proof.
  split; [intro msgs; apply try_catch_returns; intro; eexists; reflexivity|].
  split; [intro params; apply try_catch_returns; intro; eexists; reflexivity|].
  intro Hfail. split.
  - intros [ms|] Hq; [|contradiction Hq; reflexivity].
    destruct ms as [|a l]; [contradiction Hq; reflexivity|].
    destruct (@exists_last _ (a :: l)) as (hist & m & E); [discriminate|].
    rewrite E in *. clear a l E.
    rewrite askPerplexityChat_snoc in *.
    destruct (content m) as [| | | |s| | |] eqn:C;
      try (erewrite try_throw;
           [reflexivity
           | apply bind_throw, getPreassignedCommand_other; discriminate]).
    destruct (js_truthy (js_or (object_get commands (str_lower (str_trim s))) Null)) eqn:Hcmd.
    + exfalso. apply Hq.
      erewrite try_ok.
      2:{ erewrite bind_ok by apply getPreassignedCommand_str. rewrite Hcmd. reflexivity. }
      reflexivity.
    + destruct (queryPerplexityAI_spec
                  (chat_prompt (last5 (hist ++ [m]))) 100 o)
        as (t & a & Hqa & _ & _ & Hfb).
      specialize (Hfb (Hfail _ _)).
      destruct a as [| | | |x| | |];
        try (erewrite try_throw;
             [reflexivity
             | erewrite bind_ok by apply getPreassignedCommand_str; rewrite Hcmd;
               erewrite bind_ok by exact Hqa; reflexivity]).
      subst x. erewrite try_ok.
      2:{ erewrite bind_ok by apply getPreassignedCommand_str. rewrite Hcmd.
          erewrite bind_ok by exact Hqa. reflexivity. }
      reflexivity.
  - intro params.
    unfold askPerplexityRecommend, try_catch, bind, get_prop, ret, fetch_json.
    cbv zeta.
    match goal with |- context [o ?p 100%Z] =>
      pose proof (Hfail p 100%Z) as F; unfold collaborator_fails, answer_of in F;
      destruct (o p 100%Z) as [|raw|data] end;
      try reflexivity.
    destruct data; try reflexivity.
    destruct (object_get fields "answer") as [| | | |x| | |]; try reflexivity.
    destruct (String.eqb x "") eqn:E; [|discriminate].
    apply String.eqb_eq in E. subst x. reflexivity.
Qed.

End ChatClaims.

(* ================================================================= *)
(** * Concrete runs *)

(** C4 (counterexample): with 8 earlier turns, the single prompt sent
    contains turn 5 but not turn 4, although turn 4 is one of the 5 most
    recent earlier turns. *)
Lemma askPerplexityChat_drops_turn_4 :
  map (fun q => (contains "turn 4" (fst q), contains "turn 5" (fst q)))
    (queries (fst (@askPerplexityChat no_numbers
                     (Some (sample_history ++ [sample_message])) always_down))) =
  [(false, true)].
Proof. vm_compute. reflexivity. Qed.

Lemma askPerplexityChat_history_window_witness :
  length sample_history = 8%nat /\ misses_command sample_question = true /\
  queries (fst (@askPerplexityChat no_numbers
                  (Some (sample_history ++ [sample_message])) always_down)) =
    [(@chat_prompt no_numbers (skipn 4 sample_history ++ [sample_message]), 100%Z)].
Proof.
  split; [reflexivity|]. split; [reflexivity|].
  exact (proj1 (@askPerplexityChat_history_window no_numbers sample_history
                  sample_question always_down eq_refl eq_refl)).
Defined.

Lemma askPerplexityChat_help_witness :
  str_lower (str_trim shouted_help) = "help"%string /\
  @askPerplexityChat no_numbers (Some ((sample_history ++ [turn "user" "x"]) ++
      [{| role := Str "user"; content := Str shouted_help |}])) always_down =
  ([ECommandLookup (Str shouted_help)], Ok (Str HELP)).
Proof.
  split; [reflexivity|].
  exact (@askPerplexityChat_help no_numbers (sample_history ++ [turn "user" "x"])
           (Str "user") shouted_help always_down eq_refl).
Defined.

Lemma handlers_fallback_on_failure_witness :
  (forall p n, collaborator_fails (empty_answer p n)) /\
  snd (@askPerplexityChat no_numbers (Some [sample_message]) empty_answer) =
    Ok (Str CHAT_FALLBACK) /\
  snd (@askPerplexityRecommend no_numbers [("ph", qnum 6); ("moisture", qnum 40)]
         empty_answer) = Ok (Str RECOMMEND_FALLBACK).
Proof.
  assert (F : forall p n, collaborator_fails (empty_answer p n)) by (intros; reflexivity).
  split; [exact F|].
  destruct (proj2 (proj2 (@handlers_fallback_on_failure no_numbers empty_answer)) F)
    as [Hchat Hrec].
  split; [apply Hchat; vm_compute; discriminate | apply Hrec].
Defined.

Example recommend_sample :
  @askPerplexityRecommend no_numbers [("ph", Null)] (fun _ _ => NetErr) =
  ([EQuery (@recommend_prompt no_numbers Undef Null Undef Undef Undef) 100;
    ELog "Error in Perplexity recommendation"], Ok (Str RECOMMEND_FALLBACK)).
Proof. reflexivity. Qed.

Example chat_sample :
  @askPerplexityChat no_numbers
    (Some [{| role := Str "user"; content := Str "  HeLP " |}]) (fun _ _ => NetErr) =
  ([ECommandLookup (Str "  HeLP ")], Ok (Str HELP)).
Proof. reflexivity. Qed.

Example chat_sample2 :
  @askPerplexityChat no_numbers
    (Some [{| role := Str "user"; content := Str "hey" |}])
    (fun _ _ => Resp (Obj [("answer", Str " ok ")])) =
  ([ECommandLookup (Str "hey");
    EQuery (@chat_prompt no_numbers [{| role := Str "user"; content := Str "hey" |}]) 100],
   Ok (Str "ok")).
Proof. reflexivity. Qed.

(* ================================================================= *)
(** * Further properties of the rule engines *)

Lemma count_in_pos (x : string) (l : list string) :
  In x l <-> (0 < count_in [x] l)%nat.
Proof.
  induction l as [|a l IH]; [unfold count_in; simpl; split; [contradiction | lia]|].
  unfold count_in in *. simpl.
  destruct (String.eqb a x) eqn:E; simpl.
  - apply String.eqb_eq in E. subst a. split; [lia | left; reflexivity].
  - rewrite <- IH. split; [intros [H|H]; [subst a; rewrite String.eqb_refl in E; discriminate | exact H] | right; exact H].
Qed.

Lemma Qltb_iff (x y : Q) : Qltb x y = true <-> (x < y)%Q.
Proof.
  unfold Qltb. rewrite negb_true_iff. split; intro H.
  - apply Qnot_le_lt. intro H'. apply Qle_bool_iff in H'. congruence.
  - destruct (Qle_bool y x) eqn:E; [|reflexivity].
    apply Qle_bool_iff in E. exfalso. apply (Qlt_not_le x y); assumption.
Qed.

Section Comparisons.
Context {NC : NumberConversions}.

Lemma js_lt_weaken (v : jsv) (a b : Q) :
  Qle_bool a b = true -> js_lt v a = true -> js_lt v b = true.
Proof.
  unfold js_lt. intros Hab. apply Qle_bool_iff in Hab.
  destruct (to_number v) as [q|]; [|discriminate].
  rewrite !Qltb_iff. intro. eapply Qlt_le_trans; eassumption.
Qed.

Lemma js_gt_weaken (v : jsv) (a b : Q) :
  Qle_bool a b = true -> js_gt v b = true -> js_gt v a = true.
Proof.
  unfold js_gt. intros Hab. apply Qle_bool_iff in Hab.
  destruct (to_number v) as [q|]; [|discriminate].
  rewrite !Qltb_iff. intro. eapply Qle_lt_trans; eassumption.
Qed.

Lemma js_gt_not_lt (v : jsv) (a b : Q) :
  Qle_bool b a = true -> js_gt v a = true -> js_lt v b = false.
Proof.
  unfold js_gt, js_lt. intros Hba. apply Qle_bool_iff in Hba.
  destruct (to_number v) as [q|]; [|discriminate].
  rewrite Qltb_iff. intro H.
  destruct (Qltb q b) eqn:E; [|reflexivity].
  apply Qltb_iff in E. exfalso. apply (Qlt_irrefl q).
  eapply Qlt_trans; [exact E|]. eapply Qle_lt_trans; eassumption.
Qed.

Lemma js_ge_not_lt (v : jsv) (a b : Q) :
  Qle_bool b a = true -> js_ge v a = true -> js_lt v b = false.
Proof.
  unfold js_ge, js_lt. intro Hba. apply Qle_bool_iff in Hba.
  destruct (to_number v) as [q|]; [|discriminate].
  intro H. apply Qle_bool_iff in H. unfold Qltb. apply negb_false_iff.
  apply Qle_bool_iff. eapply Qle_trans; eassumption.
Qed.

Lemma js_le_not_gt (v : jsv) (a b : Q) :
  Qle_bool a b = true -> js_le v a = true -> js_gt v b = false.
Proof.
  unfold js_le, js_gt. intro Hab. apply Qle_bool_iff in Hab.
  destruct (to_number v) as [q|]; [|discriminate].
  intro H. apply Qle_bool_iff in H. unfold Qltb. apply negb_false_iff.
  apply Qle_bool_iff. eapply Qle_trans; eassumption.
Qed.

Lemma js_lt_defined (v : jsv) (a : Q) : js_lt v a = true -> is_undefined v = false.
Proof. destruct v; try reflexivity. discriminate. Qed.

Lemma js_gt_defined (v : jsv) (a : Q) : js_gt v a = true -> is_undefined v = false.
Proof. destruct v; try reflexivity. discriminate. Qed.



End Comparisons.

(** A contradiction between two comparisons of the same value. *)
Ltac cmp_contra :=
  match goal with
  | H1 : js_lt ?v ?a = true, H2 : js_lt ?v ?b = false |- _ =>
      rewrite (js_lt_weaken v a b eq_refl H1) in H2; discriminate H2
  | H1 : js_gt ?v ?b = true, H2 : js_gt ?v ?a = false |- _ =>
      rewrite (js_gt_weaken v a b eq_refl H1) in H2; discriminate H2
  | H1 : js_gt ?v ?a = true, H2 : js_lt ?v ?b = true |- _ =>
      rewrite (js_gt_not_lt v a b eq_refl H1) in H2; discriminate H2
  | H1 : js_ge ?v ?a = true, H2 : js_lt ?v ?b = true |- _ =>
      rewrite (js_ge_not_lt v a b eq_refl H1) in H2; discriminate H2
  | H1 : js_le ?v ?a = true, H2 : js_gt ?v ?b = true |- _ =>
      rewrite (js_le_not_gt v a b eq_refl H1) in H2; discriminate H2
  | H1 : js_lt ?v ?a = true, H2 : is_undefined ?v = true |- _ =>
      rewrite (js_lt_defined v a H1) in H2; discriminate H2
  | H1 : js_gt ?v ?a = true, H2 : is_undefined ?v = true |- _ =>
      rewrite (js_gt_defined v a H1) in H2; discriminate H2
  end.

(** Case analysis on every comparison visible in the goal. *)
Ltac destruct_atoms :=
  repeat match goal with
  | |- context [js_lt ?v ?c] => destruct (js_lt v c) eqn:?
  | |- context [js_gt ?v ?c] => destruct (js_gt v c) eqn:?
  | |- context [js_le ?v ?c] => destruct (js_le v c) eqn:?
  | |- context [js_ge ?v ?c] => destruct (js_ge v c) eqn:?
  | |- context [is_undefined ?v] => destruct (is_undefined v) eqn:?
  | |- context [js_truthy ?v] => destruct (js_truthy v) eqn:?
  end.

Module ProgressiveCounts.
Import Progressive.

Ltac block_tac :=
  unfold basic_ph, basic_moisture, basic_temperature, advanced_ph,
    advanced_moisture, advanced_temperature, scientific_nutrient,
    scientific_pest, scientific_crops, push;
  destruct_atoms; simpl; solve [reflexivity | congruence].

Ltac msg_count :=
  intros; rewrite ProgressiveFacts.ruleEngine_app, !count_in_app;
  destruct_atoms; count_blocks block_tac; reflexivity.

Section Counts.
Context {NC : NumberConversions}.
Variables ph moisture temperature : jsv.
Local Notation r := (ruleEngine ph moisture temperature).

Lemma count_ACIDIC : count_in [ACIDIC] r = if js_lt ph 6 then 1%nat else 0%nat.
Proof. msg_count. Qed.
Lemma count_ALKALINE :
  count_in [ALKALINE] r = if js_lt ph 6 then 0%nat else if js_gt ph 8 then 1%nat else 0%nat.
Proof. msg_count. Qed.
Lemma count_PH_GOOD :
  count_in [PH_GOOD] r = if js_lt ph 6 then 0%nat else if js_gt ph 8 then 0%nat else 1%nat.
Proof. msg_count. Qed.
Lemma count_DRY : count_in [DRY] r = if js_lt moisture 30 then 1%nat else 0%nat.
Proof. msg_count. Qed.
Lemma count_WET :
  count_in [WET] r =
  if js_lt moisture 30 then 0%nat else if js_gt moisture 70 then 1%nat else 0%nat.
Proof. msg_count. Qed.
Lemma count_MOISTURE_GOOD :
  count_in [MOISTURE_GOOD] r =
  if js_lt moisture 30 then 0%nat else if js_gt moisture 70 then 0%nat else 1%nat.
Proof. msg_count. Qed.
Lemma count_TEMP_LOW :
  count_in [TEMP_LOW] r =
  if is_undefined temperature then 0%nat else if js_lt temperature 15 then 1%nat else 0%nat.
Proof. msg_count. Qed.
Lemma count_TEMP_HIGH :
  count_in [TEMP_HIGH] r =
  if is_undefined temperature then 0%nat else if js_lt temperature 15 then 0%nat
  else if js_gt temperature 35 then 1%nat else 0%nat.
Proof. msg_count. Qed.
Lemma count_TEMP_GOOD :
  count_in [TEMP_GOOD] r =
  if is_undefined temperature then 0%nat else if js_lt temperature 15 then 0%nat
  else if js_gt temperature 35 then 0%nat else 1%nat.
Proof. msg_count. Qed.
Lemma count_VERY_ACIDIC : count_in [VERY_ACIDIC] r = if js_lt ph (11 # 2) then 1%nat else 0%nat.
Proof. msg_count. Qed.
Lemma count_STRONGLY_ALKALINE :
  count_in [STRONGLY_ALKALINE] r =
  if js_lt ph (11 # 2) then 0%nat else if js_gt ph (17 # 2) then 1%nat else 0%nat.
Proof. msg_count. Qed.
Lemma count_EXTREMELY_DRY : count_in [EXTREMELY_DRY] r = if js_lt moisture 20 then 1%nat else 0%nat.
Proof. msg_count. Qed.
Lemma count_ROOT_ROT :
  count_in [ROOT_ROT] r =
  if js_lt moisture 20 then 0%nat else if js_gt moisture 80 then 1%nat else 0%nat.
Proof. msg_count. Qed.
Lemma count_COLD_STRESS : count_in [COLD_STRESS] r = if js_lt temperature 10 then 1%nat else 0%nat.
Proof. msg_count. Qed.
Lemma count_HEAT_STRESS :
  count_in [HEAT_STRESS] r =
  if js_lt temperature 10 then 0%nat else if js_gt temperature 40 then 1%nat else 0%nat.
Proof. msg_count. Qed.
Lemma count_NUTRIENT :
  count_in [NUTRIENT] r = if js_lt ph 6 || js_gt ph 8 then 1%nat else 0%nat.
Proof. msg_count. Qed.
Lemma count_PEST :
  count_in [PEST] r =
  if (js_gt moisture 70 && js_gt temperature 30) || js_gt temperature 35 then 1%nat else 0%nat.
Proof. msg_count. Qed.
Lemma count_CROPS :
  count_in [CROPS] r =
  if js_ge ph 6 && js_le ph (15 # 2) && js_ge moisture 30 && js_le moisture 70
  then 1%nat else 0%nat.
Proof. msg_count. Qed.

End Counts.
End ProgressiveCounts.

Section EngineExtras.
Context {NC : NumberConversions}.
Import Progressive ProgressiveCounts.

Ltac coherence :=
  repeat match goal with H : In _ _ |- _ => revert H end;
  rewrite ?count_in_pos;
  rewrite ?count_ACIDIC, ?count_ALKALINE, ?count_PH_GOOD, ?count_DRY, ?count_WET,
    ?count_MOISTURE_GOOD, ?count_TEMP_LOW, ?count_TEMP_HIGH, ?count_TEMP_GOOD,
    ?count_VERY_ACIDIC, ?count_STRONGLY_ALKALINE, ?count_EXTREMELY_DRY,
    ?count_ROOT_ROT, ?count_COLD_STRESS, ?count_HEAT_STRESS, ?count_NUTRIENT,
    ?count_PEST, ?count_CROPS;
  destruct_atoms; simpl; first [lia | intros; exfalso; cmp_contra | tauto].

(** The escalated warnings of the progressive engine never contradict its
    basic tiers: "very acidic" comes with "acidic", "strongly alkaline"
    with "alkaline", "extremely dry" with "dry", the root-rot warning with
    "wet", severe cold stress with the low-temperature message, heat stress
    with the high-temperature message, the pest warning with "wet" or the
    high-temperature message; the nutrient warning appears exactly when
    the pH is not reported good, and the crop-suitability message only
    together with the good pH and the healthy moisture messages. *)
Theorem ruleEngine_warnings_match_tiers (ph moisture temperature : jsv) :
  let r := ruleEngine ph moisture temperature in
  (In VERY_ACIDIC r -> In ACIDIC r) /\
  (In STRONGLY_ALKALINE r -> In ALKALINE r) /\
  (In EXTREMELY_DRY r -> In DRY r) /\
  (In ROOT_ROT r -> In WET r) /\
  (In COLD_STRESS r -> In TEMP_LOW r) /\
  (In HEAT_STRESS r -> In TEMP_HIGH r) /\
  (In PEST r -> In WET r \/ In TEMP_HIGH r) /\
  (In NUTRIENT r <-> ~ In PH_GOOD r) /\
  (In CROPS r -> In PH_GOOD r /\ In MOISTURE_GOOD r).
Proof.
  intro r. subst r.
  repeat split; coherence.
Qed.





End EngineExtras.

(* ================================================================= *)
(** * Further properties of the handlers *)

Lemma lower_char_idem (c : ascii) : lower_char (lower_char c) = lower_char c.
Proof.
  destruct c as [b0 b1 b2 b3 b4 b5 b6 b7].
  destruct b0, b1, b2, b3, b4, b5, b6, b7; vm_compute; reflexivity.
Qed.

Lemma is_js_space_lower (c : ascii) : is_js_space (lower_char c) = is_js_space c.
Proof.
  destruct c as [b0 b1 b2 b3 b4 b5 b6 b7].
  destruct b0, b1, b2, b3, b4, b5, b6, b7; vm_compute; reflexivity.
Qed.

Lemma drop_spaces_map_lower (l : list ascii) :
  drop_spaces (map lower_char l) = map lower_char (drop_spaces l).
Proof.
  induction l as [|c l IH]; [reflexivity|].
  simpl. rewrite is_js_space_lower. destruct (is_js_space c); [exact IH|reflexivity].
Qed.

Lemma drop_spaces_fix (l : list ascii) :
  (forall c r, l = c :: r -> is_js_space c = false) -> drop_spaces l = l.
Proof.
  destruct l as [|c r]; [reflexivity|].
  intro H. simpl. rewrite (H c r eq_refl). reflexivity.
Qed.

Lemma drop_spaces_head (l : list ascii) :
  forall c r, drop_spaces l = c :: r -> is_js_space c = false.
Proof.
  induction l as [|a l IH]; [discriminate|].
  simpl. destruct (is_js_space a) eqn:E; [exact IH|].
  intros c r H. injection H as <- _. exact E.
Qed.

Lemma drop_spaces_idem (l : list ascii) : drop_spaces (drop_spaces l) = drop_spaces l.
Proof. apply drop_spaces_fix, drop_spaces_head. Qed.

Lemma drop_spaces_snoc (l : list ascii) (c : ascii) :
  is_js_space c = false -> exists x, drop_spaces (l ++ [c]) = x ++ [c].
Proof.
  intro Hc. induction l as [|a l IH].
  - exists []. simpl. rewrite Hc. reflexivity.
  - simpl. destruct (is_js_space a); [exact IH|]. exists (a :: l). reflexivity.
Qed.

(** The list behind [str_trim]. *)
Lemma str_trim_list (s : string) :
  list_ascii_of_string (str_trim s) =
  rev (drop_spaces (rev (drop_spaces (list_ascii_of_string s)))).
Proof. unfold str_trim. apply list_ascii_of_string_of_list_ascii. Qed.

Lemma trim_list_idem (l : list ascii) :
  let t := fun l => rev (drop_spaces (rev (drop_spaces l))) in
  t (t l) = t l.
Proof.
  intro t. unfold t.
  assert (Hfix : drop_spaces (rev (drop_spaces (rev (drop_spaces l)))) =
                 rev (drop_spaces (rev (drop_spaces l)))).
  { apply drop_spaces_fix. intros c r E.
    destruct (drop_spaces l) as [|d x] eqn:D; [discriminate|].
    pose proof (drop_spaces_head l d x D) as Hd.
    simpl in E. destruct (drop_spaces_snoc (rev x) d Hd) as [y Hy].
    rewrite Hy, rev_app_distr in E. simpl in E. injection E as -> _. exact Hd. }
  rewrite Hfix, rev_involutive, drop_spaces_idem. reflexivity.
Qed.

Lemma str_trim_idem (s : string) : str_trim (str_trim s) = str_trim s.
Proof.
  unfold str_trim at 1. rewrite str_trim_list.
  rewrite (trim_list_idem (list_ascii_of_string s)).
  unfold str_trim. reflexivity.
Qed.

Lemma str_trim_lower (s : string) : str_trim (str_lower s) = str_lower (str_trim s).
Proof.
  unfold str_trim, str_lower.
  rewrite !list_ascii_of_string_of_list_ascii.
  rewrite drop_spaces_map_lower, <- map_rev, drop_spaces_map_lower, <- map_rev.
  reflexivity.
Qed.

Lemma str_lower_idem (s : string) : str_lower (str_lower s) = str_lower s.
Proof.
  unfold str_lower. rewrite list_ascii_of_string_of_list_ascii, map_map.
  f_equal. apply map_ext. apply lower_char_idem.
Qed.

Lemma command_key_idem (s : string) :
  str_lower (str_trim (str_lower (str_trim s))) = str_lower (str_trim s).
Proof. rewrite str_trim_lower, str_trim_idem, str_lower_idem. reflexivity. Qed.

Section HandlerExtras.
Context {NC : NumberConversions}.

(** [getPreassignedCommand] only depends on the trimmed, lower-cased
    message: a string message gets the same answer as its normalised
    form [message.trim().toLowerCase()], so surrounding white space and
    letter case never change which command (if any) is returned. *)
Theorem getPreassignedCommand_normalised (s : string) (o : oracle) :
  snd (getPreassignedCommand (Str s) o) =
  snd (getPreassignedCommand (Str (str_lower (str_trim s))) o).
Proof. rewrite !getPreassignedCommand_str. simpl. rewrite command_key_idem. reflexivity. Qed.

Lemma queryPerplexityAI_answer (p : string) (n : Z) (o : oracle) fs (v : jsv) :
  o p n = Resp (Obj fs) -> object_get fs "answer" = v -> js_truthy v = true ->
  queryPerplexityAI p n o = ([EQuery p n], Ok v).
Proof.
  intros Ho Hv Ht. unfold queryPerplexityAI, try_catch, bind, axios_post_data.
  rewrite Ho. simpl. rewrite Hv. unfold js_or. rewrite Ht. reflexivity.
Qed.

(** A newest message that misses the command table is sent with the
    prompt of the at most 4 preceding messages and itself. *)
Lemma chat_window_trace (hist : list chat_msg) (r : jsv) (s : string) (o : oracle) :
  misses_command s = true ->
  queries (fst (askPerplexityChat (Some (hist ++ [{| role := r; content := Str s |}])) o)) =
  [(chat_prompt (skipn (length hist - 4) hist ++ [{| role := r; content := Str s |}]), 100%Z)].
Proof.
  intro Hmiss. rewrite chat_query_trace by exact Hmiss.
  unfold last5. rewrite length_app, skipn_app. simpl length.
  replace (length hist + 1 - 5)%nat with (length hist - 4)%nat by lia.
  replace (length hist - 4 - length hist)%nat with 0%nat by lia.
  reflexivity.
Qed.


(** When the newest message trims and lower-cases to "constructor", the
    command lookup [commands[key]] finds the property inherited from
    [Object.prototype]: a function, which is truthy, so [askPerplexityChat]
    returns that function instead of a string, without consulting the
    completion collaborator. *)
Theorem askPerplexityChat_inherited_command (hist : list chat_msg) (r : jsv) (s : string)
  (o : oracle) (Hkey : str_lower (str_trim s) = "constructor") :
  askPerplexityChat (Some (hist ++ [{| role := r; content := Str s |}])) o =
  ([ECommandLookup (Str s)], Ok (Host "constructor")).
Proof.
  rewrite askPerplexityChat_snoc. simpl content.
  erewrite try_ok; [reflexivity|].
  erewrite bind_ok by apply getPreassignedCommand_str.
  rewrite Hkey. reflexivity.
Qed.

(** When the newest message's content is not a string (no content, a
    number, an object, ...), [message.trim()] throws a TypeError inside
    [getPreassignedCommand]; the handler logs it and returns
    "AI failed to respond" without consulting the completion collaborator. *)
Theorem askPerplexityChat_non_string_message (hist : list chat_msg) (m : chat_msg)
  (o : oracle) (Hm : forall s, content m <> Str s) :
  askPerplexityChat (Some (hist ++ [m])) o =
  ([ECommandLookup (content m); ELog "askPerplexityChat error"], Ok (Str CHAT_FALLBACK)).
Proof.
  rewrite askPerplexityChat_snoc. erewrite try_throw.
  2:{ apply bind_throw, getPreassignedCommand_other. exact Hm. }
  reflexivity.
Qed.

(** When the newest message misses the command table and the collaborator
    answers with a truthy [answer], the handler returns that answer
    trimmed if it is a string (a blank answer thus gives the empty
    string), and "AI failed to respond" if it is not a string (its
    [.trim()] throws). *)
Theorem askPerplexityChat_reply (hist : list chat_msg) (r : jsv) (s : string)
  (o : oracle) fs (v : jsv) (Hmiss : misses_command s = true)
  (Hresp : o (chat_prompt (last5 (hist ++ [{| role := r; content := Str s |}]))) 100%Z =
           Resp (Obj fs))
  (Hans : object_get fs "answer" = v) (Htruthy : js_truthy v = true) :
  snd (askPerplexityChat (Some (hist ++ [{| role := r; content := Str s |}])) o) =
  Ok (match v with Str a => Str (str_trim a) | _ => Str CHAT_FALLBACK end).
Proof.
  unfold misses_command in Hmiss. apply negb_true_iff in Hmiss.
  pose proof (queryPerplexityAI_answer _ 100 o fs v Hresp Hans Htruthy) as Hq.
  assert (Hcmd : js_truthy (js_or (object_get commands (str_lower (str_trim s))) Null) = false).
  { unfold js_or. rewrite Hmiss. reflexivity. }
  rewrite askPerplexityChat_snoc. simpl content.
  destruct v as [| | | |a| | |];
    [ discriminate Htruthy | discriminate Htruthy | | | | | | ];
    first
      [ erewrite try_ok;
        [ reflexivity
        | erewrite bind_ok by apply getPreassignedCommand_str; rewrite Hcmd;
          erewrite bind_ok by exact Hq; reflexivity ]
      | erewrite try_throw;
        [ reflexivity
        | erewrite bind_ok by apply getPreassignedCommand_str; rewrite Hcmd;
          erewrite bind_ok by exact Hq; reflexivity ]
      | erewrite try_throw;
        [ | erewrite bind_ok by apply getPreassignedCommand_str; rewrite Hcmd;
            erewrite bind_ok by exact Hq; reflexivity ];
        reflexivity ].
Qed.

(** For every history and a newest message that misses the command table,
    exactly one request is sent, with [max_tokens] 100; its prompt holds
    the at most 4 most recent earlier messages, in order, then the newest
    message ([messages.slice(-5)] counts the newest message). *)
Theorem askPerplexityChat_prompt_window (hist : list chat_msg) (r : jsv) (s : string)
  (o : oracle) (Hmiss : misses_command s = true) :
  queries (fst (askPerplexityChat (Some (hist ++ [{| role := r; content := Str s |}])) o)) =
  [(chat_prompt (skipn (length hist - 4) hist ++ [{| role := r; content := Str s |}]), 100%Z)].
Proof. apply chat_window_trace. exact Hmiss. Qed.

End HandlerExtras.

Section RecommendExtras.
Context {NC : NumberConversions}.




End RecommendExtras.

(* ================================================================= *)
(** * Properties of the routes *)

Section RouteExtras.
Context {NC : NumberConversions}.


Variable user_id_eq : jsv -> jsv -> bool.







End RouteExtras.

(* ================================================================= *)
(** * Concrete runs of the further properties *)




Lemma askPerplexityChat_inherited_command_witness :
  str_lower (str_trim " Constructor") = "constructor"%string /\
  @askPerplexityChat no_numbers
    (Some (sample_history ++ [{| role := Str "user"; content := Str " Constructor" |}]))
    always_down =
  ([ECommandLookup (Str " Constructor")], Ok (Host "constructor")).
Proof.
  split; [reflexivity|].
  exact (@askPerplexityChat_inherited_command no_numbers sample_history (Str "user")
           " Constructor" always_down eq_refl).
Defined.

Lemma askPerplexityChat_non_string_message_witness :
  (forall s, content {| role := Str "user"; content := Undef |} <> Str s) /\
  @askPerplexityChat no_numbers
    (Some (sample_history ++ [{| role := Str "user"; content := Undef |}])) always_down =
  ([ECommandLookup Undef; ELog "askPerplexityChat error"], Ok (Str CHAT_FALLBACK)).
Proof.
  assert (H : forall s, content {| role := Str "user"; content := Undef |} <> Str s)
    by (intros s E; discriminate E).
  split; [exact H|].
  exact (@askPerplexityChat_non_string_message no_numbers sample_history
           {| role := Str "user"; content := Undef |} always_down H).
Defined.

Lemma askPerplexityChat_reply_witness :
  misses_command sample_question = true /\
  snd (@askPerplexityChat no_numbers (Some (sample_history ++ [sample_message]))
         (fun _ _ => Resp (Obj [("answer", Str "  ")]))) = Ok (Str "").
Proof.
  split; [reflexivity|].
  exact (@askPerplexityChat_reply no_numbers sample_history (Str "user") sample_question
           (fun _ _ => Resp (Obj [("answer", Str "  ")])) [("answer", Str "  ")] (Str "  ")
           eq_refl eq_refl eq_refl eq_refl).
Defined.

Lemma askPerplexityChat_prompt_window_witness :
  misses_command sample_question = true /\
  queries (fst (@askPerplexityChat no_numbers
                  (Some ([turn "user" "1"; turn "assistant" "2"] ++ [sample_message]))
                  always_down)) =
  [(@chat_prompt no_numbers ([turn "user" "1"; turn "assistant" "2"] ++ [sample_message]),
    100%Z)].
Proof.
  split; [reflexivity|].
  exact (@askPerplexityChat_prompt_window no_numbers [turn "user" "1"; turn "assistant" "2"]
           (Str "user") sample_question always_down eq_refl).
Defined.


